(** * Webhook text-to-speech entity: model and verified properties

    Shallow embedding of [custom_components/webhook_conversation/tts.py].

    Python dictionaries are finite maps ([gmap]), Python exceptions are an
    explicit error type, and the single HTTP POST of a synthesis call is
    recorded in a log of sent requests that is threaded through the call.

    Strings are Stdlib strings, i.e. sequences of 8-bit characters; the
    separator "/" and the header names the code looks at are ASCII. Floating
    point values are left out of the value universe. *)

From Stdlib Require Import ZArith Ascii String List Lia.
From stdpp Require Import base option list gmap strings pretty.

Local Open Scope string_scope.
Local Open Scope Z_scope.

(** ** Python values and exceptions *)

(** The values a configuration mapping, an options mapping or a JSON payload
    may hold ([Any] in the source's annotations). *)
#[warnings="-register-all"]
Inductive pyval : Type :=
| PyNone
| PyBool (b : bool)
| PyInt (z : Z)
| PyStr (s : string)
| PyList (l : list pyval).

(** Truth value testing: [None], [False], [0], the empty string and the empty
    list are false, everything else is true. *)
Definition py_truthy (v : pyval) : bool :=
  match v with
  | PyNone => false
  | PyBool b => b
  | PyInt z => negb (z =? 0)
  | PyStr s => negb (String.eqb s "")
  | PyList l => match l with [] => false | _ :: _ => true end
  end.

Inductive exn : Type :=
| HomeAssistantError (msg : string)
| KeyError (key : string)
| IndexError
| TypeError
| OtherError (msg : string).

Inductive result (A : Type) : Type :=
| Ok (a : A)
| Raise (e : exn).
Arguments Ok {A} a.
Arguments Raise {A} e.

Definition is_ok {A} (r : result A) : bool :=
  match r with Ok _ => true | Raise _ => false end.

Definition rbind {A B} (r : result A) (k : A -> result B) : result B :=
  match r with
  | Ok a => k a
  | Raise e => Raise e
  end.

Declare Scope result_scope.
Delimit Scope result_scope with result.
Notation "x <- r ;; k" := (rbind r (fun x => k))
  (at level 100, r at next level, right associativity) : result_scope.

(** [d[k]]: raises [KeyError] on a missing key. *)
Definition dict_getitem (d : gmap string pyval) (k : string) : result pyval :=
  match d !! k with
  | Some v => Ok v
  | None => Raise (KeyError k)
  end.

(** [d.get(k)]: [None] on a missing key. *)
Definition dict_get (d : gmap string pyval) (k : string) : pyval :=
  default PyNone (d !! k).

(** [d.get(k, dflt)]. *)
Definition dict_get_default (d : gmap string pyval) (k : string)
    (dflt : pyval) : pyval :=
  default dflt (d !! k).

(** [a or b]. *)
Definition py_or (a b : pyval) : pyval :=
  if py_truthy a then a else b.

Definition chars_of (s : string) : list pyval :=
  (fun c => PyStr (String c "")) <$> list_ascii_of_string s.

(** [v[0]] for the value kinds of [pyval]: lists and strings are
    subscriptable, the others are not. *)
Definition py_getitem0 (v : pyval) : result pyval :=
  match v with
  | PyList (x :: _) => Ok x
  | PyList [] => Raise IndexError
  | PyStr (String c _) => Ok (PyStr (String c ""))
  | PyStr EmptyString => Raise IndexError
  | PyNone | PyBool _ | PyInt _ => Raise TypeError
  end.

(** [for x in v]: the elements a comprehension iterates over. *)
Definition py_iter (v : pyval) : result (list pyval) :=
  match v with
  | PyList l => Ok l
  | PyStr s => Ok (chars_of s)
  | PyNone | PyBool _ | PyInt _ => Raise TypeError
  end.

(** ** Host data the entity is built from *)

(** [ATTR_VOICE] of the host's [tts] component. *)
Definition ATTR_VOICE : string := "voice".

(** The host's [Voice(voice_id, name)] dataclass; its fields are not checked
    at run time. *)
Record Voice : Type := mkVoice {
  voice_id : pyval;
  name : pyval
}.

Record ConfigSubentry : Type := mkSubentry {
  subentry_type : string;
  subentry_id : string;
  title : string;
  data : gmap string pyval
}.

Record ConfigEntry : Type := mkConfigEntry {
  (** [config_entry.options] *)
  entry_options : gmap string pyval;
  (** [subentries.values()], in the dictionary's order *)
  subentries : list ConfigSubentry
}.

(** What the entity inherits from [WebhookConversationBaseEntity]: the
    attributes and methods of the base class that this module uses. *)
Record WebhookConversationBaseEntity : Type := mkBase {
  _config_entry : ConfigEntry;
  _webhook_url : string;
  device_info : option (gmap string pyval);
  _get_auth_headers : list (string * string);
  _apply_custom_request_fields :
    gmap string pyval -> result (gmap string pyval)
}.

Record WebhookConversationTextToSpeechEntity : Type := mkEntity {
  base : WebhookConversationBaseEntity;
  _attr_name : pyval;
  _attr_supported_languages : pyval;
  _attr_default_language : pyval;
  (** class default of the host's [TextToSpeechEntity] is [None] *)
  _attr_supported_options : option (list string);
  (** class default [_voices = None] *)
  _voices : option (list Voice);
  (** the slot [cached_property] fills on the first read of
      [default_options]; [None] while it has not been read *)
  default_options_cache : option (option (gmap string Voice))
}.

Definition set_voices (opts : option (list string)) (vs : option (list Voice))
    (e : WebhookConversationTextToSpeechEntity) :
    WebhookConversationTextToSpeechEntity :=
  {| base := base e;
     _attr_name := _attr_name e;
     _attr_supported_languages := _attr_supported_languages e;
     _attr_default_language := _attr_default_language e;
     _attr_supported_options := opts;
     _voices := vs;
     default_options_cache := default_options_cache e |}.

Definition set_cache (c : option (option (gmap string Voice)))
    (e : WebhookConversationTextToSpeechEntity) :
    WebhookConversationTextToSpeechEntity :=
  {| base := base e;
     _attr_name := _attr_name e;
     _attr_supported_languages := _attr_supported_languages e;
     _attr_default_language := _attr_default_language e;
     _attr_supported_options := _attr_supported_options e;
     _voices := _voices e;
     default_options_cache := c |}.

(** Truth value of an optional dictionary ([if self.device_info]). *)
Definition opt_dict_truthy (d : option (gmap string pyval)) : bool :=
  match d with
  | None => false
  | Some m => negb (bool_decide (m = ∅))
  end.

(** ** Strings: formatting, membership, splitting *)

(** [f"{x}"] for an optional string: [None] prints as the word None. *)
Definition fmt_opt_str (o : option string) : string := default "None" o.

(** [sub in s]. *)
Fixpoint str_in (sub s : string) : bool :=
  String.prefix sub s ||
  match s with
  | EmptyString => false
  | String _ s' => str_in sub s'
  end.

(** [s.split(sep)] for a one-character separator: never the empty list. *)
Fixpoint py_split (sep : ascii) (s : string) : list string :=
  match s with
  | EmptyString => [EmptyString]
  | String c s' =>
      if Ascii.eqb c sep then EmptyString :: py_split sep s'
      else match py_split sep s' with
           | [] => [String c EmptyString]
           | x :: xs => String c x :: xs
           end
  end.

(** [l[-1]]. *)
Definition py_last {A} (l : list A) : result A :=
  match last l with
  | Some x => Ok x
  | None => Raise IndexError
  end.

(** ** The HTTP exchange *)

Record Request : Type := mkRequest {
  req_url : string;
  req_json : gmap string pyval;
  req_headers : list (string * string);
  req_timeout : pyval
}.

Record Response : Type := mkResponse {
  status : Z;
  reason : option string;
  (** header lines in order; names compare without regard to case *)
  headers : list (string * string);
  (** what [response.read()] returns *)
  body : list Byte.byte
}.

Definition lower_ascii (c : ascii) : ascii :=
  let n := N_of_ascii c in
  if ((65 <=? n) && (n <=? 90))%N then ascii_of_N (n + 32) else c.

Fixpoint lower (s : string) : string :=
  match s with
  | EmptyString => EmptyString
  | String c s' => String (lower_ascii c) (lower s')
  end.

(** [response.headers.get(k)] on the client library's case-insensitive
    multi-dictionary: the first line whose name matches, [None] otherwise. *)
Definition headers_get (h : list (string * string)) (k : string) :
    option string :=
  snd <$> List.find (fun kv => String.eqb (lower (fst kv)) (lower k)) h.

(** Computations that may raise and that record the requests handed to
    [session.post]. *)
Definition IO (A : Type) : Type := list Request -> result A * list Request.

Definition io_ret {A} (a : A) : IO A := fun log => (Ok a, log).

Definition io_raise {A} (e : exn) : IO A := fun log => (Raise e, log).

Definition io_lift {A} (r : result A) : IO A := fun log => (r, log).

Definition io_bind {A B} (m : IO A) (k : A -> IO B) : IO B :=
  fun log =>
    match m log with
    | (Ok a, log') => k a log'
    | (Raise e, log') => (Raise e, log')
    end.

Declare Scope io_scope.
Delimit Scope io_scope with io.
Notation "x <- m ;; k" := (io_bind m (fun x => k))
  (at level 100, m at next level, right associativity) : io_scope.

(** ["sep".join(l)], the inverse of [py_split]. *)
Fixpoint join (sep : ascii) (l : list string) : string :=
  match l with
  | [] => EmptyString
  | [x] => x
  | x :: rest => x ++ String sep (join sep rest)
  end.

(** ** Sample configurations and webhooks *)

Definition example_entry : ConfigEntry :=
  {| entry_options := ∅; subentries := [] |}.

Definition example_base
    (hook : gmap string pyval -> result (gmap string pyval)) :
    WebhookConversationBaseEntity :=
  {| _config_entry := example_entry;
     _webhook_url := "http://hooks.local/tts";
     device_info := None;
     _get_auth_headers := [("Authorization", "Bearer token")];
     _apply_custom_request_fields := hook |}.

Definition example_base_init
    (hook : gmap string pyval -> result (gmap string pyval))
    (_ : ConfigEntry) (_ : ConfigSubentry) :
    result WebhookConversationBaseEntity :=
  Ok (example_base hook).

Definition example_subentry (d : gmap string pyval) : ConfigSubentry :=
  {| subentry_type := "tts"; subentry_id := "01J";
     title := "Webhook TTS"; data := d |}.

(** A custom-fields hook that leaves the payload as it is. *)
Definition keep_fields (p : gmap string pyval) : result (gmap string pyval) :=
  Ok p.

(** A custom-fields hook that removes the voice. *)
Definition drop_voice (p : gmap string pyval) : result (gmap string pyval) :=
  Ok (delete "voice" p).

(** A webhook that answers every request with the same response. *)
Definition always_responds (r : Response) (_ : Request) : result Response :=
  Ok r.

Definition mp3_response : Response :=
  {| status := 200; reason := Some "OK";
     headers := [("Content-Type", "audio/mp3")];
     body := [Byte.x41; Byte.x42; Byte.x43] |}.

Definition plain_response : Response :=
  {| status := 200; reason := Some "OK";
     headers := [("Content-Type", "text/plain")];
     body := [Byte.x6f; Byte.x6b] |}.

Definition not_found_response : Response :=
  {| status := 404; reason := Some "Not Found";
     headers := [("Content-Type", "text/html")];
     body := [] |}.

Definition untyped_response : Response :=
  {| status := 200; reason := Some "OK"; headers := []; body := [] |}.

(** An entity as the constructor leaves it when no voices are configured. *)
Definition example_entity
    (hook : gmap string pyval -> result (gmap string pyval)) :
    WebhookConversationTextToSpeechEntity :=
  {| base := example_base hook;
     _attr_name := PyStr "Webhook TTS";
     _attr_supported_languages := PyList [PyStr "en"];
     _attr_default_language := PyStr "en";
     _attr_supported_options := None;
     _voices := None;
     default_options_cache := None |}.

(** The entity the constructor builds from the languages en, de and the
    voices [vs] (a non-empty list). *)
Definition example_voiced_entity (vs : list pyval) :
    WebhookConversationTextToSpeechEntity :=
  {| base := example_base keep_fields;
     _attr_name := PyStr "Webhook TTS";
     _attr_supported_languages := PyList [PyStr "en"; PyStr "de"];
     _attr_default_language := PyStr "en";
     _attr_supported_options := Some ["voice"];
     _voices := Some ((fun voice => mkVoice voice voice) <$> vs);
     default_options_cache := None |}.

Definition example_voiced_subentry (vs : list pyval) : ConfigSubentry :=
  example_subentry
    {[ "supported_languages" := PyList [PyStr "en"; PyStr "de"];
       "voices" := PyList vs ]}.

(** A subentry of another platform of the integration. *)
Definition example_conversation_subentry : ConfigSubentry :=
  {| subentry_type := "conversation"; subentry_id := "01C";
     title := "Webhook agent"; data := ∅ |}.

(** A configuration entry with a subentry of another type and one [tts]
    subentry. *)
Definition example_good_entry : ConfigEntry :=
  {| entry_options := ∅;
     subentries := [example_conversation_subentry;
                    example_voiced_subentry [PyStr "a"; PyStr "b"]] |}.

(** A configuration entry whose second [tts] subentry has no languages. *)
Definition example_bad_entry : ConfigEntry :=
  {| entry_options := ∅;
     subentries := [example_voiced_subentry [PyStr "a"; PyStr "b"];
                    example_subentry ∅;
                    example_voiced_subentry [PyStr "x"]] |}.

(** A base class that belongs to a named device. *)
Definition example_device_base : WebhookConversationBaseEntity :=
  {| _config_entry := example_entry;
     _webhook_url := "http://hooks.local/tts";
     device_info := Some {[ "name" := PyStr "Kitchen speaker" ]};
     _get_auth_headers := [];
     _apply_custom_request_fields := keep_fields |}.

Definition example_device_entity : WebhookConversationTextToSpeechEntity :=
  {| base := example_device_base;
     _attr_name := PyStr "Kitchen speaker";
     _attr_supported_languages := PyList [PyStr "en"; PyStr "de"];
     _attr_default_language := PyStr "en";
     _attr_supported_options := Some ["voice"];
     _voices := Some [mkVoice (PyStr "a") (PyStr "a")];
     default_options_cache := None |}.

(** A webhook that cannot be reached. *)
Definition never_connects (_ : Request) : result Response :=
  Raise (OtherError "Cannot connect to host").

(** ** The entity *)

Section Entity.

(** Constants of the integration's [const] module. *)
Variables CONF_SUPPORTED_LANGUAGES CONF_VOICES CONF_TIMEOUT : string.
Variable DEFAULT_TIMEOUT : pyval.

(** [WebhookConversationBaseEntity.__init__], run by [super().__init__]:
    the inherited part of the new object, unless it raises. *)
Variable base_init :
  ConfigEntry -> ConfigSubentry -> result WebhookConversationBaseEntity.

(** The webhook as seen through [session.post]: a response, or the error
    the transport raises. *)
Variable server : Request -> result Response.

Definition __init__ (config_entry : ConfigEntry)
    (subentry : ConfigSubentry) :
    result WebhookConversationTextToSpeechEntity :=
  (self_base <- base_init config_entry subentry ;;
   let attr_name :=
     if opt_dict_truthy (device_info self_base)
     then py_or (dict_get (default ∅ (device_info self_base)) "name")
                (PyStr (title subentry))
     else PyStr (title subentry) in
   supported_languages <-
     dict_getitem (data subentry) CONF_SUPPORTED_LANGUAGES ;;
   default_language <- py_getitem0 supported_languages ;;
   let self :=
     {| base := self_base;
        _attr_name := attr_name;
        _attr_supported_languages := supported_languages;
        _attr_default_language := default_language;
        _attr_supported_options := None;
        _voices := None;
        default_options_cache := None |} in
   let voices := dict_get (data subentry) CONF_VOICES in
   if py_truthy voices then
     vs <- py_iter voices ;;
     Ok (set_voices (Some [ATTR_VOICE])
                    (Some ((fun voice => mkVoice voice voice) <$> vs))
                    self)
   else Ok self)%result.

(** The loop of [async_setup_entry] over the remaining subentries; [added]
    collects the calls of [async_add_entities] (entity list and
    [config_subentry_id]). An exception of the constructor leaves the
    loop. *)
Fixpoint setup_loop (config_entry : ConfigEntry)
    (subs : list ConfigSubentry)
    (added : list (list WebhookConversationTextToSpeechEntity * string)) :
    result unit * list (list WebhookConversationTextToSpeechEntity * string) :=
  match subs with
  | [] => (Ok tt, added)
  | subentry :: rest =>
      if negb (String.eqb (subentry_type subentry) "tts")
      then setup_loop config_entry rest added
      else match __init__ config_entry subentry with
           | Ok e =>
               setup_loop config_entry rest
                 ((added ++ [([e], subentry_id subentry)])%list)
           | Raise x => (Raise x, added)
           end
  end.

Definition async_setup_entry (config_entry : ConfigEntry) :
    result unit * list (list WebhookConversationTextToSpeechEntity * string) :=
  setup_loop config_entry (subentries config_entry) [].

Definition async_get_supported_voices
    (self : WebhookConversationTextToSpeechEntity) (language : string) :
    option (list Voice) :=
  _voices self.

(** The body of the [default_options] property. *)
Definition default_options_body
    (self : WebhookConversationTextToSpeechEntity) :
    option (gmap string Voice) :=
  match _voices self with
  | None | Some [] => None
  | Some (v :: _) => Some {[ ATTR_VOICE := v ]}
  end.

(** Reading the cached property: the body runs on the first read only and
    its value is kept on the object. *)
Definition default_options
    (self : WebhookConversationTextToSpeechEntity) :
    option (gmap string Voice) * WebhookConversationTextToSpeechEntity :=
  match default_options_cache self with
  | Some r => (r, self)
  | None =>
      let r := default_options_body self in
      (r, set_cache (Some r) self)
  end.

Definition session_post (req : Request) : IO Response :=
  fun log => (server req, (log ++ [req])%list).

(** Lines 97-103: the payload before the custom-fields hook. *)
Definition assemble_payload (message language : string)
    (options : gmap string pyval) : gmap string pyval :=
  let payload : gmap string pyval :=
    {[ "text" := PyStr message; "language" := PyStr language ]} in
  let voice := dict_get options ATTR_VOICE in
  if py_truthy voice then <[ "voice" := voice ]> payload else payload.

(** Lines 113-130: what is done with the response. *)
Definition read_audio (response : Response) :
    result (string * list Byte.byte) :=
  if negb (status response =? 200) then
    Raise (HomeAssistantError
             ("Error contacting TTS webhook: HTTP " ++ pretty (status response)
              ++ " - " ++ fmt_opt_str (reason response)))
  else
    let response_bytes := body response in
    let content_type := headers_get (headers response) "Content-Type" in
    let invalid : result (string * list Byte.byte) :=
      Raise (HomeAssistantError
               ("Invalid Content-Type in TTS webhook response: "
                ++ fmt_opt_str content_type)) in
    match content_type with
    | None => invalid
    | Some ct =>
        if String.eqb ct "" || negb (str_in "/" ct) then invalid
        else
          (audio_format <- py_last (py_split "/" ct) ;;
           if negb (bool_decide (audio_format ∈ ["wav"; "mp3"])) then
             Raise (HomeAssistantError
                      ("Unsupported audio format in TTS webhook response: "
                       ++ audio_format))
           else Ok (audio_format, response_bytes))%result
    end.

Definition async_get_tts_audio
    (self : WebhookConversationTextToSpeechEntity)
    (message language : string) (options : gmap string pyval) :
    IO (string * list Byte.byte) :=
  (let timeout :=
     dict_get_default (entry_options (_config_entry (base self)))
                      CONF_TIMEOUT DEFAULT_TIMEOUT in
   let headers := _get_auth_headers (base self) in
   let payload := assemble_payload message language options in
   payload <- io_lift (_apply_custom_request_fields (base self) payload) ;;
   response <- session_post
                 {| req_url := _webhook_url (base self);
                    req_json := payload;
                    req_headers := headers;
                    req_timeout := timeout |} ;;
   io_lift (read_audio response))%io.

(** The operations the host may run on a constructed entity. *)
Inductive operation : Type :=
| GetSupportedVoices (language : string)
| DefaultOptions
| GetTtsAudio (message language : string) (options : gmap string pyval).

Definition run_op (op : operation)
    (st : WebhookConversationTextToSpeechEntity * list Request) :
    WebhookConversationTextToSpeechEntity * list Request :=
  match op with
  | GetSupportedVoices _ => st
  | DefaultOptions => (snd (default_options (fst st)), snd st)
  | GetTtsAudio message language options =>
      (fst st,
       snd (async_get_tts_audio (fst st) message language options (snd st)))
  end.

Definition run_ops (ops : list operation)
    (st : WebhookConversationTextToSpeechEntity * list Request) :
    WebhookConversationTextToSpeechEntity * list Request :=
  fold_left (fun s op => run_op op s) ops st.

(** The arguments of the POST (lines 107-111) for a final payload. *)
Definition request_for (self : WebhookConversationTextToSpeechEntity)
    (payload : gmap string pyval) : Request :=
  {| req_url := _webhook_url (base self);
     req_json := payload;
     req_headers := _get_auth_headers (base self);
     req_timeout :=
       dict_get_default (entry_options (_config_entry (base self)))
                        CONF_TIMEOUT DEFAULT_TIMEOUT |}.

(** The call gets as far as the POST and the webhook answers it with
    [response]. *)
Definition webhook_responds (self : WebhookConversationTextToSpeechEntity)
    (message language : string) (options : gmap string pyval)
    (response : Response) : Prop :=
  exists final,
    _apply_custom_request_fields (base self)
      (assemble_payload message language options) = Ok final /\
    server (request_for self final) = Ok response.

(** Two entities that differ at most in the cache slot. *)
Definition same_config (e e' : WebhookConversationTextToSpeechEntity) :
    Prop :=
  base e = base e' /\
  _attr_name e = _attr_name e' /\
  _attr_supported_languages e = _attr_supported_languages e' /\
  _attr_default_language e = _attr_default_language e' /\
  _attr_supported_options e = _attr_supported_options e' /\
  _voices e = _voices e'.

(** The cache slot is empty or holds what the property body computes. *)
Definition cache_coherent (e : WebhookConversationTextToSpeechEntity) :
    Prop :=
  default_options_cache e = None \/
  default_options_cache e = Some (default_options_body e).

(** The voices entry is one the constructor can use: false, a list or a
    string. *)
Definition voices_usable (subentry : ConfigSubentry) : bool :=
  let voices := dict_get (data subentry) CONF_VOICES in
  negb (py_truthy voices) || is_ok (py_iter voices).

(** Identifier and label agree on every voice of a non-empty list. *)
Definition voices_well_formed (vs : list Voice) : Prop :=
  vs <> [] /\ Forall (fun v => voice_id v = name v) vs.

(** A [tts] subentry, the only kind [async_setup_entry] builds an entity
    for. *)
Definition is_tts (subentry : ConfigSubentry) : Prop :=
  subentry_type subentry = "tts".

(** [reg] is the call of [async_add_entities] made for [subentry]: the one
    entity its constructor returned, under the subentry's identifier. *)
Definition registered_for (config_entry : ConfigEntry)
    (reg : list WebhookConversationTextToSpeechEntity * string)
    (subentry : ConfigSubentry) : Prop :=
  exists e,
    __init__ config_entry subentry = Ok e /\
    reg = ([e], subentry_id subentry).

(** The number of synthesis calls among operations. *)
Definition tts_calls (ops : list operation) : nat :=
  length (List.filter
            (fun op => match op with GetTtsAudio _ _ _ => true | _ => false end)
            ops).

(** ** Strings *)

Lemma append_cons (c : ascii) (s t : string) :
  String c s ++ t = String c (s ++ t).
Proof. reflexivity. Qed.

Lemma append_assoc (s t u : string) : (s ++ t) ++ u = s ++ (t ++ u).
Proof.
  induction s as [|c s IH]; [reflexivity|].
  by rewrite !append_cons, IH.
Qed.

Lemma prefix_app (s t : string) : String.prefix s (s ++ t) = true.
Proof.
  induction s as [|a s IH]; simpl; [by destruct t|].
  destruct (ascii_dec a a); [exact IH | congruence].
Qed.

Lemma str_in_app (a s b : string) : str_in s (a ++ s ++ b) = true.
Proof.
  induction a as [|c a IH].
  - change ("" ++ s ++ b) with (s ++ b).
    pose proof (prefix_app s b) as Hp.
    destruct (s ++ b); cbn [str_in]; by rewrite Hp.
  - change (String c a ++ s ++ b) with (String c (a ++ s ++ b)).
    cbn [str_in]. rewrite IH. apply orb_true_r.
Qed.

Lemma str_in_char (c a : ascii) (s : string) :
  str_in (String c "") (String a s)
  = Ascii.eqb a c || str_in (String c "") s.
Proof.
  cbn [str_in String.prefix]. destruct (ascii_dec c a) as [->|Hne].
  - rewrite Ascii.eqb_refl. by destruct s.
  - by destruct (Ascii.eqb_spec a c); [congruence|].
Qed.

Lemma str_in_empty (sub : string) : sub <> "" -> str_in sub "" = false.
Proof. by destruct sub. Qed.

Lemma py_split_nonempty sep s : py_split sep s <> [].
Proof.
  destruct s as [|c s]; simpl; [done|].
  destruct (Ascii.eqb c sep); [done|]. by destruct (py_split sep s).
Qed.

Lemma py_split_join sep s : join sep (py_split sep s) = s.
Proof.
  induction s as [|c s IH]; simpl; [done|].
  destruct (Ascii.eqb_spec c sep) as [->|Hne].
  - pose proof (py_split_nonempty sep s).
    destruct (py_split sep s) eqn:E; [done|]. simpl in *. by rewrite IH.
  - destruct (py_split sep s) as [|x xs] eqn:E; simpl in *; [by subst|].
    destruct xs; simpl in *; by rewrite <- IH.
Qed.

Lemma py_split_no_sep sep s :
  Forall (fun x => str_in (String sep "") x = false) (py_split sep s).
Proof.
  induction s as [|c s IH]; simpl.
  - by constructor.
  - destruct (Ascii.eqb_spec c sep) as [->|Hne].
    + by constructor.
    + destruct (py_split sep s) as [|x xs].
      * constructor; [|done]. rewrite str_in_char.
        by destruct (Ascii.eqb_spec c sep).
      * inversion IH; subst. constructor; [|done].
        rewrite str_in_char. by destruct (Ascii.eqb_spec c sep).
Qed.

Lemma join_snoc sep (l : list string) x :
  l <> [] -> join sep (l ++ [x])%list = join sep l ++ String sep x.
Proof.
  induction l as [|y l IH]; [done|]. intros _.
  destruct l as [|z l]; [done|].
  change (join sep ((y :: z :: l) ++ [x])%list)
    with (y ++ String sep (join sep ((z :: l) ++ [x])%list)).
  rewrite IH by done.
  change (join sep (y :: z :: l))
    with (y ++ String sep (join sep (z :: l))).
  by rewrite append_assoc.
Qed.

(** The last piece of a split has no separator, and the string is that
    piece, preceded by a separator if the string has one at all. *)
Lemma py_split_last sep s :
  exists fmt, last (py_split sep s) = Some fmt /\
    str_in (String sep "") fmt = false /\
    (if str_in (String sep "") s
     then exists pre, s = pre ++ String sep fmt
     else fmt = s).
Proof.
  pose proof (py_split_nonempty sep s) as Hne.
  pose proof (py_split_join sep s) as Hj.
  pose proof (py_split_no_sep sep s) as Hn.
  revert Hne Hj Hn. generalize (py_split sep s) as L. intros L.
  destruct L as [|fmt l _] using rev_ind; intros Hne Hj Hn; [done|].
  exists fmt. rewrite last_snoc. split; [done|].
  apply Forall_app in Hn as [_ Hn2]. inversion Hn2 as [|? ? Hfmt _]; subst.
  split; [done|].
  destruct l as [|y l].
  - simpl. by rewrite Hfmt.
  - rewrite join_snoc by done.
    assert (Hin := str_in_app (join sep (y :: l)) (String sep "") fmt).
    change (String sep "" ++ fmt) with (String sep fmt) in Hin.
    rewrite Hin. by eexists.
Qed.

(** A string is cut at its last separator in one way only. *)
Lemma last_sep_unique sep (pre pre' fmt fmt' : string) :
  str_in (String sep "") fmt = false ->
  str_in (String sep "") fmt' = false ->
  pre ++ String sep fmt = pre' ++ String sep fmt' ->
  fmt = fmt'.
Proof.
  intros Hf Hf'. revert pre'.
  induction pre as [|c pre IH]; intros [|c' pre'] Heq.
  - by injection Heq.
  - rewrite append_cons in Heq. injection Heq as <- ->.
    pose proof (str_in_app pre' (String sep "") fmt') as Hin.
    change (String sep "" ++ fmt') with (String sep fmt') in Hin. congruence.
  - rewrite append_cons in Heq. injection Heq as -> <-.
    pose proof (str_in_app pre (String sep "") fmt) as Hin.
    change (String sep "" ++ fmt) with (String sep fmt) in Hin. congruence.
  - rewrite !append_cons in Heq. injection Heq as _ Heq. by apply (IH pre').
Qed.

(** ** The synthesis call *)

(** The call unfolded: hook, one POST, then the checks on the response. *)
Lemma async_get_tts_audio_unfold self message language options log :
  async_get_tts_audio self message language options log =
  match _apply_custom_request_fields (base self)
          (assemble_payload message language options) with
  | Raise e => (Raise e, log)
  | Ok final =>
      match server (request_for self final) with
      | Ok response =>
          (read_audio response, (log ++ [request_for self final])%list)
      | Raise e => (Raise e, (log ++ [request_for self final])%list)
      end
  end.
Proof.
  unfold async_get_tts_audio, io_bind, io_lift, session_post, request_for.
  destruct (_apply_custom_request_fields _ _) as [final|e]; [|done].
  by destruct (server _).
Qed.

Lemma async_get_tts_audio_responds self message language options log
    response :
  webhook_responds self message language options response ->
  fst (async_get_tts_audio self message language options log)
  = read_audio response.
Proof.
  intros (final & Hhook & Hpost).
  by rewrite async_get_tts_audio_unfold, Hhook, Hpost.
Qed.

Lemma assemble_payload_lookup message language options :
  let p := assemble_payload message language options in
  p !! "text" = Some (PyStr message) /\
  p !! "language" = Some (PyStr language) /\
  p !! "voice" =
    (if py_truthy (dict_get options ATTR_VOICE)
     then Some (dict_get options ATTR_VOICE) else None).
Proof.
  unfold assemble_payload.
  destruct (py_truthy (dict_get options ATTR_VOICE)); simpl;
    repeat split; by simplify_map_eq.
Qed.

(** C1 (as amended): the payload assembled before the custom-fields hook
    always holds [text] (the message) and [language]; it holds [voice],
    with the caller's value, exactly when the options map has a truthy
    voice. The assembled payload is then given to the hook, and what the
    hook returns is the JSON of the one request that is posted; when the
    hook raises, nothing is posted. *)
Theorem payload_assembled_then_hook
    (self : WebhookConversationTextToSpeechEntity)
    (message language : string) (options : gmap string pyval)
    (log : list Request) :
  let assembled := assemble_payload message language options in
  assembled !! "text" = Some (PyStr message) /\
  assembled !! "language" = Some (PyStr language) /\
  (is_Some (assembled !! "voice")
     <-> py_truthy (dict_get options ATTR_VOICE) = true) /\
  assembled !! "voice" =
    (if py_truthy (dict_get options ATTR_VOICE)
     then Some (dict_get options ATTR_VOICE) else None) /\
  match _apply_custom_request_fields (base self) assembled with
  | Ok final =>
      snd (async_get_tts_audio self message language options log)
      = (log ++ [request_for self final])%list /\
      req_json (request_for self final) = final
  | Raise e =>
      async_get_tts_audio self message language options log = (Raise e, log)
  end.
Proof.
  intros assembled.
  destruct (assemble_payload_lookup message language options)
    as (Htext & Hlang & Hvoice).
  fold assembled in Htext, Hlang, Hvoice.
  repeat split; try done.
  - rewrite Hvoice. destruct (py_truthy _); [done|]. by intros [? ?].
  - rewrite Hvoice. by intros ->.
  - rewrite async_get_tts_audio_unfold. fold assembled.
    destruct (_apply_custom_request_fields _ _) as [final|e]; [|done].
    by destruct (server _).
Qed.

(** C2: when the webhook answers with status 200 and a Content-Type whose
    part after the slash is [wav] or [mp3], the call returns that subtype
    together with the response body, byte for byte. *)
Theorem audio_returned_for_wav_or_mp3
    (self : WebhookConversationTextToSpeechEntity)
    (message language : string) (options : gmap string pyval)
    (log : list Request) (response : Response) (pre fmt : string) :
  webhook_responds self message language options response ->
  status response = 200 ->
  headers_get (headers response) "Content-Type" = Some (pre ++ "/" ++ fmt) ->
  fmt = "wav" \/ fmt = "mp3" ->
  fst (async_get_tts_audio self message language options log)
  = Ok (fmt, body response).
Proof.
  intros Hresp Hst Hct Hfmt.
  rewrite (async_get_tts_audio_responds _ _ _ _ _ _ Hresp).
  unfold read_audio. rewrite Hst, Hct. cbn [Z.eqb Pos.eqb negb].
  assert (Hin : str_in "/" (pre ++ "/" ++ fmt) = true) by apply str_in_app.
  assert (Hne : String.eqb (pre ++ "/" ++ fmt) "" = false).
  { destruct pre; reflexivity. }
  rewrite Hne, Hin. cbn [orb negb].
  destruct (py_split_last "/" (pre ++ "/" ++ fmt))
    as (fmt' & Hlast & Hno & Hcut).
  rewrite Hin in Hcut. destruct Hcut as [pre' Hcut].
  assert (fmt = fmt') as <-.
  { eapply (last_sep_unique "/" pre pre'); [|done|exact Hcut].
    by destruct Hfmt as [-> | ->]. }
  unfold py_last. rewrite Hlast. cbn [rbind].
  by destruct Hfmt as [-> | ->].
Qed.

(** C3: with status 200 and a Content-Type that has a slash, the audio
    format is the part of the header after its last slash; the call returns
    it with the body when it is [wav] or [mp3], and otherwise fails with an
    error that names it. *)
Theorem subtype_must_be_wav_or_mp3
    (self : WebhookConversationTextToSpeechEntity)
    (message language : string) (options : gmap string pyval)
    (log : list Request) (response : Response) (ct : string) :
  webhook_responds self message language options response ->
  status response = 200 ->
  headers_get (headers response) "Content-Type" = Some ct ->
  str_in "/" ct = true ->
  exists pre audio_format,
    ct = pre ++ "/" ++ audio_format /\
    str_in "/" audio_format = false /\
    fst (async_get_tts_audio self message language options log) =
      if bool_decide (audio_format ∈ ["wav"; "mp3"])
      then Ok (audio_format, body response)
      else Raise (HomeAssistantError
                    ("Unsupported audio format in TTS webhook response: "
                     ++ audio_format)).
Proof.
  intros Hresp Hst Hct Hin.
  rewrite (async_get_tts_audio_responds _ _ _ _ _ _ Hresp).
  unfold read_audio. rewrite Hst, Hct. cbn [Z.eqb Pos.eqb negb].
  assert (Hne : String.eqb ct "" = false).
  { destruct ct; [|reflexivity]. by rewrite str_in_empty in Hin. }
  rewrite Hne, Hin. cbn [orb negb].
  destruct (py_split_last "/" ct) as (fmt & Hlast & Hno & Hcut).
  rewrite Hin in Hcut. destruct Hcut as [pre Hcut].
  exists pre, fmt. split; [exact Hcut|]. split; [exact Hno|].
  unfold py_last. rewrite Hlast. cbn [rbind].
  by destruct (bool_decide (fmt ∈ ["wav"; "mp3"])).
Qed.

(** C4: when the webhook answers with a status other than 200, the call
    fails with an error whose message holds the status code in decimal and
    the reason phrase; no audio is returned. *)
Theorem non_200_status_fails
    (self : WebhookConversationTextToSpeechEntity)
    (message language : string) (options : gmap string pyval)
    (log : list Request) (response : Response) :
  webhook_responds self message language options response ->
  status response <> 200 ->
  exists msg,
    fst (async_get_tts_audio self message language options log)
    = Raise (HomeAssistantError msg) /\
    msg = "Error contacting TTS webhook: HTTP " ++ pretty (status response)
          ++ " - " ++ fmt_opt_str (reason response) /\
    str_in (pretty (status response)) msg = true /\
    str_in (fmt_opt_str (reason response)) msg = true.
Proof.
  intros Hresp Hst.
  rewrite (async_get_tts_audio_responds _ _ _ _ _ _ Hresp).
  unfold read_audio.
  destruct (Z.eqb_spec (status response) 200) as [|_]; [done|].
  cbn [negb]. eexists. split; [reflexivity|]. split; [reflexivity|]. split.
  - apply str_in_app.
  - rewrite <- (append_assoc _ " - "), <- (append_assoc _ (_ ++ " - ")).
    pose proof (str_in_app
                  (("Error contacting TTS webhook: HTTP "
                    ++ pretty (status response)) ++ " - ")
                  (fmt_opt_str (reason response)) "") as Hin.
    assert (Hnil : forall s : string, s ++ "" = s).
    { induction s as [|c s IH]; [done|]. by rewrite append_cons, IH. }
    by rewrite Hnil in Hin.
Qed.

(** C5: with status 200 and a Content-Type header that is missing, empty
    or without a slash, the call fails with an error that ends in the raw
    header value (the word None for a missing header); no audio is
    returned. *)
Theorem invalid_content_type_fails
    (self : WebhookConversationTextToSpeechEntity)
    (message language : string) (options : gmap string pyval)
    (log : list Request) (response : Response) :
  webhook_responds self message language options response ->
  status response = 200 ->
  let content_type := headers_get (headers response) "Content-Type" in
  (content_type = None \/ content_type = Some "" \/
   exists ct, content_type = Some ct /\ str_in "/" ct = false) ->
  fst (async_get_tts_audio self message language options log)
  = Raise (HomeAssistantError
             ("Invalid Content-Type in TTS webhook response: "
              ++ fmt_opt_str content_type)).
Proof.
  intros Hresp Hst content_type Hbad.
  rewrite (async_get_tts_audio_responds _ _ _ _ _ _ Hresp).
  unfold read_audio. rewrite Hst. cbn [Z.eqb Pos.eqb negb].
  fold content_type.
  destruct Hbad as [-> | [-> | (ct & -> & Hno)]]; [done|done|].
  rewrite Hno. by rewrite orb_true_r.
Qed.

(** ** Construction *)

(** What a successful construction tells about the configuration and the
    new object. *)
Lemma init_ok_inv config_entry subentry e :
  __init__ config_entry subentry = Ok e ->
  exists self_base supported_languages,
    base_init config_entry subentry = Ok self_base /\
    data subentry !! CONF_SUPPORTED_LANGUAGES = Some supported_languages /\
    py_getitem0 supported_languages = Ok (_attr_default_language e) /\
    base e = self_base /\
    _attr_supported_languages e = supported_languages /\
    default_options_cache e = None /\
    if py_truthy (dict_get (data subentry) CONF_VOICES)
    then exists vs,
           py_iter (dict_get (data subentry) CONF_VOICES) = Ok vs /\
           _voices e = Some ((fun voice => mkVoice voice voice) <$> vs) /\
           _attr_supported_options e = Some [ATTR_VOICE]
    else _voices e = None /\ _attr_supported_options e = None.
Proof.
  unfold __init__, dict_getitem. intros H.
  destruct (base_init config_entry subentry) as [b|]; [|done].
  cbn [rbind] in H.
  destruct (data subentry !! CONF_SUPPORTED_LANGUAGES) as [langs|]; [|done].
  cbn [rbind] in H.
  destruct (py_getitem0 langs) as [dl|] eqn:Hdl; [|done].
  cbn [rbind] in H. exists b, langs.
  destruct (py_truthy (dict_get (data subentry) CONF_VOICES)).
  - destruct (py_iter (dict_get (data subentry) CONF_VOICES)) as [vs|];
      [|done].
    cbn [rbind] in H. injection H as <-. cbn.
    repeat split; try done. by exists vs.
  - injection H as <-. by cbn.
Qed.

(** Construction goes through once the base class is set up, the language
    entry has a first element and the voices entry is usable. *)
Lemma init_succeeds config_entry subentry self_base langs first :
  base_init config_entry subentry = Ok self_base ->
  data subentry !! CONF_SUPPORTED_LANGUAGES = Some langs ->
  py_getitem0 langs = Ok first ->
  voices_usable subentry = true ->
  is_ok (__init__ config_entry subentry) = true.
Proof.
  unfold __init__, dict_getitem, voices_usable.
  intros Hb Hl Hf Hv.
  rewrite Hb. cbn [rbind]. rewrite Hl. cbn [rbind]. rewrite Hf. cbn [rbind].
  destruct (py_truthy (dict_get (data subentry) CONF_VOICES)); [|done].
  cbn [negb orb] in Hv.
  by destruct (py_iter (dict_get (data subentry) CONF_VOICES)).
Qed.

Lemma py_iter_nonempty v vs :
  py_truthy v = true -> py_iter v = Ok vs -> vs <> [].
Proof.
  destruct v as [| | |s|l]; try done.
  - intros Hs [= <-]. by destruct s.
  - intros Hl [= <-]. by destruct l.
Qed.

(** ** Operations keep the configuration *)

Lemma same_config_refl e : same_config e e.
Proof. by repeat split. Qed.

Lemma same_config_trans e1 e2 e3 :
  same_config e1 e2 -> same_config e2 e3 -> same_config e1 e3.
Proof.
  unfold same_config.
  intros (?&?&?&?&?&?) (?&?&?&?&?&?). repeat split; congruence.
Qed.

Lemma default_options_body_same e e' :
  same_config e e' -> default_options_body e = default_options_body e'.
Proof.
  intros (_&_&_&_&_&Hv). unfold default_options_body. by rewrite Hv.
Qed.

Lemma run_op_same_config op st : same_config (fst st) (fst (run_op op st)).
Proof.
  destruct op, st as [e log]; cbn; try apply same_config_refl.
  unfold default_options.
  destruct (default_options_cache e); cbn; by repeat split.
Qed.

Lemma run_op_cache_coherent op st :
  cache_coherent (fst st) -> cache_coherent (fst (run_op op st)).
Proof.
  destruct op, st as [e log]; cbn; try done.
  unfold default_options.
  destruct (default_options_cache e) eqn:Hc; cbn; [done|].
  intros _. by right.
Qed.

Lemma run_ops_invariant ops st :
  cache_coherent (fst st) ->
  same_config (fst st) (fst (run_ops ops st)) /\
  cache_coherent (fst (run_ops ops st)).
Proof.
  unfold run_ops. revert st.
  induction ops as [|op ops IH]; intros st Hc; cbn.
  - split; [apply same_config_refl | done].
  - destruct (IH (run_op op st)) as [Hs Hc'].
    { by apply run_op_cache_coherent. }
    split; [|done].
    eapply same_config_trans; [apply run_op_same_config | exact Hs].
Qed.

Lemma default_options_coherent e :
  cache_coherent e -> fst (default_options e) = default_options_body e.
Proof.
  unfold default_options. by intros [-> | ->].
Qed.

(** Every entity the host can hold: built by the constructor, then used
    through any operations. *)
Lemma constructed_then_used config_entry subentry e ops log :
  __init__ config_entry subentry = Ok e ->
  same_config e (fst (run_ops ops (e, log))) /\
  cache_coherent (fst (run_ops ops (e, log))).
Proof.
  intros Hinit. apply (run_ops_invariant ops (e, log)).
  destruct (init_ok_inv _ _ _ Hinit) as (?&?&?&?&?&?&?&Hc&?). by left.
Qed.

(** An exception of a constructor leaves [async_setup_entry]. *)
Lemma setup_loop_propagates config_entry subs added subentry :
  subentry ∈ subs ->
  subentry_type subentry = "tts" ->
  is_ok (__init__ config_entry subentry) = false ->
  is_ok (fst (setup_loop config_entry subs added)) = false.
Proof.
  intros Hin Hty Hfail. revert added.
  induction Hin as [subentry rest | subentry other rest Hin IH];
    intros added; cbn.
  - rewrite Hty. cbn.
    by destruct (__init__ config_entry subentry).
  - destruct (negb (String.eqb (subentry_type other) "tts"));
      [by apply IH|].
    destruct (__init__ config_entry other); [by apply IH | done].
Qed.

(** ** The claims about the configured entity *)

(** C6: for a configured language list with first element [first], a
    constructed entity has [first] as default language and the configured
    list as supported languages, and keeps both through every operation;
    such a construction does succeed when the base class initialises and
    the voices entry is usable. *)
Theorem default_language_is_first
    (config_entry : ConfigEntry) (subentry : ConfigSubentry)
    (first : pyval) (rest : list pyval) :
  data subentry !! CONF_SUPPORTED_LANGUAGES = Some (PyList (first :: rest)) ->
  (forall e ops log,
     __init__ config_entry subentry = Ok e ->
     _attr_default_language e = first /\
     _attr_supported_languages e = PyList (first :: rest) /\
     _attr_default_language (fst (run_ops ops (e, log))) = first /\
     _attr_supported_languages (fst (run_ops ops (e, log)))
     = PyList (first :: rest)) /\
  (forall self_base,
     base_init config_entry subentry = Ok self_base ->
     voices_usable subentry = true ->
     is_ok (__init__ config_entry subentry) = true).
Proof.
  intros Hlangs. split.
  - intros e ops log Hinit.
    destruct (constructed_then_used _ _ _ ops log Hinit)
      as [(_&_&Hsl&Hdl&_&_) _].
    destruct (init_ok_inv _ _ _ Hinit)
      as (b & langs & _ & Hl & Hfirst & _ & Hsup & _).
    rewrite Hlangs in Hl. injection Hl as <-.
    cbn in Hfirst. injection Hfirst as Hfirst.
    rewrite <- Hdl, <- Hsl. by rewrite <- Hfirst, Hsup.
  - intros b Hb Hv. by eapply init_succeeds.
Qed.

(** C7: on a constructed entity, before or after any operations,
    [async_get_supported_voices] gives the same answer for every two
    languages: nothing when no voice list (or an empty one) is configured,
    and otherwise the configured voices in order, each as the pair of its
    identifier with itself. *)
Theorem supported_voices_ignore_language
    (config_entry : ConfigEntry) (subentry : ConfigSubentry)
    (e : WebhookConversationTextToSpeechEntity)
    (ops : list operation) (log : list Request)
    (language language' : string) (configured : option (list pyval)) :
  __init__ config_entry subentry = Ok e ->
  data subentry !! CONF_VOICES = PyList <$> configured ->
  let e' := fst (run_ops ops (e, log)) in
  async_get_supported_voices e' language
  = async_get_supported_voices e' language' /\
  async_get_supported_voices e' language =
    match configured with
    | None | Some [] => None
    | Some vs => Some ((fun voice => mkVoice voice voice) <$> vs)
    end.
Proof.
  intros Hinit Hcfg e'. split; [done|].
  unfold async_get_supported_voices.
  destruct (constructed_then_used _ _ _ ops log Hinit)
    as [(_&_&_&_&_&Hv) _].
  fold e' in Hv. rewrite <- Hv.
  destruct (init_ok_inv _ _ _ Hinit) as (_&_&_&_&_&_&_&_&Hvoices).
  unfold dict_get in Hvoices. rewrite Hcfg in Hvoices.
  destruct configured as [[|v vs]|]; cbn in Hvoices.
  - by destruct Hvoices.
  - destruct Hvoices as (vs' & [= <-] & -> & _). done.
  - by destruct Hvoices.
Qed.

(** C8: on a constructed entity, before or after any operations,
    [default_options] returns nothing when no voice list (or an empty one)
    is configured, and otherwise a mapping with the single key [voice]
    bound to the first configured voice. *)
Theorem default_options_selects_first_voice
    (config_entry : ConfigEntry) (subentry : ConfigSubentry)
    (e : WebhookConversationTextToSpeechEntity)
    (ops : list operation) (log : list Request)
    (configured : option (list pyval)) :
  __init__ config_entry subentry = Ok e ->
  data subentry !! CONF_VOICES = PyList <$> configured ->
  fst (default_options (fst (run_ops ops (e, log)))) =
    match configured with
    | None | Some [] => None
    | Some (v :: _) => Some {[ ATTR_VOICE := mkVoice v v ]}
    end.
Proof.
  intros Hinit Hcfg.
  destruct (constructed_then_used _ _ _ ops log Hinit) as [Hsame Hcache].
  rewrite (default_options_coherent _ Hcache).
  rewrite <- (default_options_body_same _ _ Hsame).
  unfold default_options_body.
  destruct (init_ok_inv _ _ _ Hinit) as (_&_&_&_&_&_&_&_&Hvoices).
  unfold dict_get in Hvoices. rewrite Hcfg in Hvoices.
  destruct configured as [[|v vs]|]; cbn in Hvoices.
  - destruct Hvoices as [-> _]. done.
  - destruct Hvoices as (vs' & [= <-] & -> & _). done.
  - destruct Hvoices as [-> _]. done.
Qed.

(** C9: construction raises when the supported-languages entry is absent
    ([KeyError]) or is the empty list ([IndexError]); an exception of the
    constructor of a [tts] subentry is not caught by [async_setup_entry]
    but leaves it; and construction succeeds on every non-empty language
    list, given that the base class initialises and the voices entry is
    usable. *)
Theorem construction_needs_languages
    (config_entry : ConfigEntry) (subentry : ConfigSubentry) :
  (data subentry !! CONF_SUPPORTED_LANGUAGES = None ->
   is_ok (__init__ config_entry subentry) = false /\
   forall self_base,
     base_init config_entry subentry = Ok self_base ->
     __init__ config_entry subentry
     = Raise (KeyError CONF_SUPPORTED_LANGUAGES)) /\
  (data subentry !! CONF_SUPPORTED_LANGUAGES = Some (PyList []) ->
   is_ok (__init__ config_entry subentry) = false /\
   forall self_base,
     base_init config_entry subentry = Ok self_base ->
     __init__ config_entry subentry = Raise IndexError) /\
  (is_ok (__init__ config_entry subentry) = false ->
   subentry ∈ subentries config_entry ->
   subentry_type subentry = "tts" ->
   is_ok (fst (async_setup_entry config_entry)) = false) /\
  (forall first rest self_base,
     data subentry !! CONF_SUPPORTED_LANGUAGES
     = Some (PyList (first :: rest)) ->
     base_init config_entry subentry = Ok self_base ->
     voices_usable subentry = true ->
     is_ok (__init__ config_entry subentry) = true).
Proof.
  split; [|split; [|split]].
  - intros Habsent. unfold __init__, dict_getitem. rewrite Habsent.
    destruct (base_init config_entry subentry) as [b|]; [|done].
    split; [done|]. by intros ? _.
  - intros Hempty. unfold __init__, dict_getitem. rewrite Hempty.
    destruct (base_init config_entry subentry) as [b|]; [|done].
    split; [done|]. by intros ? _.
  - intros Hfail Hin Hty. unfold async_setup_entry.
    by eapply setup_loop_propagates.
  - intros first rest b Hl Hb Hv. by eapply init_succeeds.
Qed.

(** C10: on a constructed entity, before or after any operations (which
    change nothing but the cache slot of [default_options]): the stored
    voice list is absent or a non-empty list whose voices each have equal
    identifier and label; the voice option is exposed exactly when a voice
    list is stored; and for a configured voice list, the option is exposed
    and the voices are stored when the list is non-empty, while an empty
    list and no list both leave the entity without voices and without
    options. *)
Theorem voices_invariant
    (config_entry : ConfigEntry) (subentry : ConfigSubentry)
    (e : WebhookConversationTextToSpeechEntity)
    (ops : list operation) (log : list Request) :
  __init__ config_entry subentry = Ok e ->
  let e' := fst (run_ops ops (e, log)) in
  same_config e e' /\
  match _voices e' with
  | None => True
  | Some vs => voices_well_formed vs
  end /\
  (_attr_supported_options e' = Some [ATTR_VOICE] <-> is_Some (_voices e')) /\
  forall configured : option (list pyval),
    data subentry !! CONF_VOICES = PyList <$> configured ->
    match configured with
    | None | Some [] =>
        _voices e' = None /\ _attr_supported_options e' = None
    | Some vs =>
        _voices e' = Some ((fun voice => mkVoice voice voice) <$> vs) /\
        _attr_supported_options e' = Some [ATTR_VOICE]
    end.
Proof.
  intros Hinit e'.
  destruct (constructed_then_used _ _ _ ops log Hinit) as [Hsame _].
  fold e' in Hsame. split; [exact Hsame|].
  destruct Hsame as (_&_&_&_&Hopts&Hv). rewrite <- Hopts, <- Hv.
  destruct (init_ok_inv _ _ _ Hinit) as (_&_&_&_&_&_&_&_&Hvoices).
  destruct (py_truthy (dict_get (data subentry) CONF_VOICES)) eqn:Htruthy.
  - destruct Hvoices as (vs & Hiter & -> & ->).
    pose proof (py_iter_nonempty _ _ Htruthy Hiter) as Hne.
    repeat split; try done.
    + by destruct vs.
    + apply Forall_fmap, Forall_forall. done.
    + intros configured Hcfg. unfold dict_get in Htruthy, Hiter.
      rewrite Hcfg in Htruthy, Hiter.
      destruct configured as [[|v vs']|]; cbn in *; try done.
      by injection Hiter as <-.
  - destruct Hvoices as [-> ->]. repeat split; try done.
    intros configured Hcfg. unfold dict_get in Htruthy.
    rewrite Hcfg in Htruthy.
    by destruct configured as [[|v vs']|].
Qed.

(** ** Setting up the entities of a configuration entry *)

Lemma setup_loop_app config_entry before rest added :
  setup_loop config_entry (before ++ rest)%list added =
  match setup_loop config_entry before added with
  | (Ok _, added') => setup_loop config_entry rest added'
  | (Raise x, added') => (Raise x, added')
  end.
Proof.
  revert added. induction before as [|s before IH]; intros added; cbn.
  - done.
  - destruct (negb (String.eqb (subentry_type s) "tts")); [apply IH|].
    destruct (__init__ config_entry s); [apply IH | done].
Qed.

Lemma setup_loop_all_ok config_entry subs added :
  Forall (fun s => is_tts s -> is_ok (__init__ config_entry s) = true) subs ->
  exists regs,
    setup_loop config_entry subs added = (Ok tt, (added ++ regs)%list) /\
    Forall2 (registered_for config_entry) regs (filter is_tts subs).
Proof.
  intros Hall. revert added.
  induction Hall as [|s subs Hs _ IH]; intros added; cbn [setup_loop].
  - exists []. rewrite app_nil_r. split; [done | constructor].
  - destruct (String.eqb_spec (subentry_type s) "tts") as [Htts|Hne];
      cbn [negb].
    + specialize (Hs Htts).
      destruct (__init__ config_entry s) as [e|] eqn:He; [|done].
      destruct (IH (added ++ [([e], subentry_id s)])%list)
        as (regs & -> & Hregs).
      exists (([e], subentry_id s) :: regs). split.
      * by rewrite <- app_assoc.
      * rewrite filter_cons_True by done.
        constructor; [by exists e | done].
    + destruct (IH added) as (regs & -> & Hregs).
      exists regs. split; [done|]. by rewrite filter_cons_False.
Qed.

(** X1: the setup of a configuration entry succeeds exactly when the
    constructor succeeds on each of its [tts] subentries; subentries of
    other types never make it fail. *)
Theorem setup_succeeds_iff (config_entry : ConfigEntry) :
  is_ok (fst (async_setup_entry config_entry)) = true <->
  Forall (fun s => is_tts s -> is_ok (__init__ config_entry s) = true)
         (subentries config_entry).
Proof.
  split.
  - intros Hok. apply Forall_forall. intros s Hin Htts.
    destruct (is_ok (__init__ config_entry s)) eqn:Hs; [done|].
    pose proof (setup_loop_propagates config_entry
                  (subentries config_entry) [] s Hin Htts Hs) as Hfail.
    unfold async_setup_entry in Hok. congruence.
  - intros Hall. unfold async_setup_entry.
    destruct (setup_loop_all_ok config_entry _ [] Hall) as (regs & -> & _).
    done.
Qed.

(** X2: when the setup succeeds, [async_add_entities] has been called once
    for each [tts] subentry, in the order of the subentries, each time with
    the single entity built from that subentry and with its identifier as
    [config_subentry_id]; nothing is added for subentries of other types. *)
Theorem setup_registers_each_tts_subentry (config_entry : ConfigEntry) :
  is_ok (fst (async_setup_entry config_entry)) = true ->
  Forall2 (registered_for config_entry)
          (snd (async_setup_entry config_entry))
          (filter is_tts (subentries config_entry)).
Proof.
  intros Hok.
  assert (Hall : Forall (fun s => is_tts s ->
                           is_ok (__init__ config_entry s) = true)
                        (subentries config_entry)).
  { apply Forall_forall. intros s Hin Htts.
    destruct (is_ok (__init__ config_entry s)) eqn:Hs; [done|].
    pose proof (setup_loop_propagates config_entry
                  (subentries config_entry) [] s Hin Htts Hs) as Hfail.
    unfold async_setup_entry in Hok. congruence. }
  unfold async_setup_entry.
  destruct (setup_loop_all_ok config_entry _ [] Hall) as (regs & -> & Hregs).
  exact Hregs.
Qed.

(** X3: the setup stops at the first [tts] subentry whose constructor
    raises: that exception is the outcome, the entities of the [tts]
    subentries before it have already been added, and none of the later
    subentries is looked at. *)
Theorem setup_stops_at_first_failure (config_entry : ConfigEntry)
    (before after : list ConfigSubentry) (failing : ConfigSubentry)
    (x : exn) :
  subentries config_entry = (before ++ failing :: after)%list ->
  Forall (fun s => is_tts s -> is_ok (__init__ config_entry s) = true)
         before ->
  is_tts failing ->
  __init__ config_entry failing = Raise x ->
  exists regs,
    async_setup_entry config_entry = (Raise x, regs) /\
    Forall2 (registered_for config_entry) regs (filter is_tts before).
Proof.
  intros Hsubs Hbefore Htts Hraise.
  unfold async_setup_entry. rewrite Hsubs, setup_loop_app.
  destruct (setup_loop_all_ok config_entry before [] Hbefore)
    as (regs & -> & Hregs).
  exists regs. split; [|done].
  cbn. rewrite Htts. cbn. by rewrite Hraise.
Qed.

(** ** More on construction *)

#[local] Set Warnings "-clear-no-such-hyp".

Lemma init_ok_name config_entry subentry e :
  __init__ config_entry subentry = Ok e ->
  exists self_base,
    base_init config_entry subentry = Ok self_base /\
    _attr_name e =
      if opt_dict_truthy (device_info self_base)
      then py_or (dict_get (default ∅ (device_info self_base)) "name")
                 (PyStr (title subentry))
      else PyStr (title subentry).
Proof.
  unfold __init__, dict_getitem. intros H.
  destruct (base_init config_entry subentry) as [b|]; [|done].
  cbn [rbind] in H. exists b. split; [done|].
  destruct (data subentry !! CONF_SUPPORTED_LANGUAGES) as [langs|]; [|done].
  cbn [rbind] in H.
  destruct (py_getitem0 langs) as [dl|]; [|done].
  cbn [rbind] in H.
  destruct (py_truthy (dict_get (data subentry) CONF_VOICES)).
  - destruct (py_iter (dict_get (data subentry) CONF_VOICES)); [|done].
    cbn [rbind] in H. by injection H as <-.
  - by injection H as <-.
Qed.

(** X4: the name of a constructed entity is the [name] entry of the device
    info when there is one and it is truthy, and the title of the subentry in
    every other case (no device info, an empty one, no [name] entry, or a
    [name] that is [None] or empty); operations do not change it. *)
Theorem name_is_device_name_or_title
    (config_entry : ConfigEntry) (subentry : ConfigSubentry)
    (e : WebhookConversationTextToSpeechEntity)
    (ops : list operation) (log : list Request) :
  __init__ config_entry subentry = Ok e ->
  exists self_base,
    base_init config_entry subentry = Ok self_base /\
    _attr_name (fst (run_ops ops (e, log))) =
      match device_info self_base ≫= (fun d => d !! "name") with
      | Some device_name =>
          if py_truthy device_name then device_name
          else PyStr (title subentry)
      | None => PyStr (title subentry)
      end.
Proof.
  intros Hinit.
  destruct (constructed_then_used _ _ _ ops log Hinit) as [(_&Hn&_) _].
  destruct (init_ok_name _ _ _ Hinit) as (b & Hb & Hname).
  exists b. split; [done|]. rewrite <- Hn, Hname.
  destruct (device_info b) as [d|]; [|done]. cbn.
  destruct (decide (d = ∅)) as [->|Hne].
  - by rewrite bool_decide_eq_true_2.
  - rewrite bool_decide_eq_false_2 by done. cbn.
    unfold py_or, dict_get. by destruct (d !! "name").
Qed.



(** ** More on the default options *)

(** X7: reading [default_options] fills the cache slot with the value
    returned, and a second read returns the same value and changes
    nothing. *)
Theorem default_options_read_twice
    (e : WebhookConversationTextToSpeechEntity) :
  default_options_cache (snd (default_options e))
  = Some (fst (default_options e)) /\
  default_options (snd (default_options e))
  = (fst (default_options e), snd (default_options e)).
Proof.
  unfold default_options.
  destruct (default_options_cache e) as [r|] eqn:Hc; cbn.
  - by rewrite Hc.
  - done.
Qed.

(** X8: on a constructed entity, before or after any operations, the
    default options and the supported voices agree: there are default
    options exactly when there are supported voices, and the default voice
    is then the first of the supported voices. *)
Theorem default_voice_is_first_supported
    (config_entry : ConfigEntry) (subentry : ConfigSubentry)
    (e : WebhookConversationTextToSpeechEntity)
    (ops : list operation) (log : list Request) (language : string) :
  __init__ config_entry subentry = Ok e ->
  let e' := fst (run_ops ops (e, log)) in
  match async_get_supported_voices e' language with
  | None => fst (default_options e') = None
  | Some voices =>
      exists v rest,
        voices = v :: rest /\
        fst (default_options e') = Some {[ ATTR_VOICE := v ]}
  end.
Proof.
  intros Hinit e'.
  destruct (constructed_then_used _ _ _ ops log Hinit) as [Hsame Hcache].
  fold e' in Hsame, Hcache.
  rewrite (default_options_coherent _ Hcache).
  unfold async_get_supported_voices, default_options_body.
  destruct Hsame as (_&_&_&_&_&Hv). rewrite <- Hv.
  destruct (init_ok_inv _ _ _ Hinit) as (_&_&_&_&_&_&_&_&Hvoices).
  destruct (py_truthy (dict_get (data subentry) CONF_VOICES)) eqn:Htruthy.
  - destruct Hvoices as (vs & Hiter & -> & _).
    pose proof (py_iter_nonempty _ _ Htruthy Hiter) as Hne.
    destruct vs as [|v vs]; [done|]. cbn. by eexists _, _.
  - by destruct Hvoices as [-> _].
Qed.

(** ** More on the synthesis call *)

Lemma call_log_frame self message language options log :
  async_get_tts_audio self message language options log =
  (fst (async_get_tts_audio self message language options []),
   (log ++ snd (async_get_tts_audio self message language options []))%list).
Proof.
  rewrite !async_get_tts_audio_unfold.
  destruct (_apply_custom_request_fields _ _) as [final|x]; cbn.
  - by destruct (server _).
  - by rewrite app_nil_r.
Qed.

Lemma call_sends_at_most_one self message language options :
  (length (snd (async_get_tts_audio self message language options []))
   <= 1)%nat.
Proof.
  rewrite async_get_tts_audio_unfold.
  destruct (_apply_custom_request_fields _ _) as [final|x]; cbn; [|lia].
  destruct (server _); cbn; lia.
Qed.

Lemma read_audio_wav_mp3 response pre fmt :
  status response = 200 ->
  headers_get (headers response) "Content-Type" = Some (pre ++ "/" ++ fmt) ->
  fmt = "wav" \/ fmt = "mp3" ->
  read_audio response = Ok (fmt, body response).
Proof.
  intros Hst Hct Hfmt.
  unfold read_audio. rewrite Hst, Hct. cbn [Z.eqb Pos.eqb negb].
  assert (Hin : str_in "/" (pre ++ "/" ++ fmt) = true) by apply str_in_app.
  assert (Hne : String.eqb (pre ++ "/" ++ fmt) "" = false)
    by (by destruct pre).
  rewrite Hne, Hin. cbn [orb negb].
  destruct (py_split_last "/" (pre ++ "/" ++ fmt))
    as (fmt' & Hlast & Hno & Hcut).
  rewrite Hin in Hcut. destruct Hcut as [pre' Hcut].
  assert (fmt = fmt') as <-.
  { eapply (last_sep_unique "/" pre pre'); [|done|exact Hcut].
    by destruct Hfmt as [-> | ->]. }
  unfold py_last. rewrite Hlast. cbn [rbind].
  by destruct Hfmt as [-> | ->].
Qed.

Lemma read_audio_ok_inv response fmt bytes :
  read_audio response = Ok (fmt, bytes) ->
  status response = 200 /\ (fmt = "wav" \/ fmt = "mp3") /\
  bytes = body response /\
  exists pre,
    headers_get (headers response) "Content-Type" = Some (pre ++ "/" ++ fmt).
Proof.
  unfold read_audio.
  destruct (Z.eqb_spec (status response) 200) as [Hst|]; [|done].
  cbn [negb].
  destruct (headers_get (headers response) "Content-Type") as [ct|]; [|done].
  destruct (String.eqb ct ""); [done|]. cbn [orb].
  destruct (str_in "/" ct) eqn:Hin; [|done]. cbn [negb].
  destruct (py_split_last "/" ct) as (fmt' & Hlast & _ & Hcut).
  rewrite Hin in Hcut. destruct Hcut as [pre ->].
  unfold py_last. rewrite Hlast. cbn [rbind].
  destruct (bool_decide (fmt' ∈ ["wav"; "mp3"])) eqn:Hmem; [|done].
  cbn [negb]. intros [= <- <-].
  apply bool_decide_eq_true_1 in Hmem.
  repeat split; [done| |by exists pre].
  set_solver.
Qed.

Lemma read_audio_raise_inv response x :
  read_audio response = Raise x ->
  exists msg rest,
    x = HomeAssistantError msg /\
    (msg = "Error contacting TTS webhook: HTTP " ++ rest \/
     msg = "Invalid Content-Type in TTS webhook response: " ++ rest \/
     msg = "Unsupported audio format in TTS webhook response: " ++ rest).
Proof.
  unfold read_audio.
  destruct (negb (status response =? 200)).
  { intros [= <-]. eexists _, _. split; [done|]. by left. }
  destruct (headers_get (headers response) "Content-Type") as [ct|].
  2: { intros [= <-]. eexists _, _. split; [done|]. right. by left. }
  destruct (String.eqb ct "" || negb (str_in "/" ct)).
  { intros [= <-]. eexists _, _. split; [done|]. right. by left. }
  destruct (py_split_last "/" ct) as (fmt & Hlast & _ & _).
  unfold py_last. rewrite Hlast. cbn [rbind].
  destruct (negb (bool_decide (fmt ∈ ["wav"; "mp3"]))); [|done].
  intros [= <-]. eexists _, _. split; [done|]. right. by right.
Qed.

(** X9: every request a synthesis call adds to the log goes to the webhook
    URL of the entity with its authentication headers, carries as JSON what
    the custom-fields hook returned for the assembled payload, and has as
    timeout the timeout option of the configuration entry when that option
    is set and the default timeout otherwise. *)
Theorem posted_request_fields
    (self : WebhookConversationTextToSpeechEntity)
    (message language : string) (options : gmap string pyval)
    (log : list Request) (r : Request) :
  r ∈ snd (async_get_tts_audio self message language options log) ->
  r ∈ log \/
  (req_url r = _webhook_url (base self) /\
   req_headers r = _get_auth_headers (base self) /\
   _apply_custom_request_fields (base self)
     (assemble_payload message language options) = Ok (req_json r) /\
   req_timeout r =
     match entry_options (_config_entry (base self)) !! CONF_TIMEOUT with
     | Some timeout => timeout
     | None => DEFAULT_TIMEOUT
     end).
Proof.
  rewrite async_get_tts_audio_unfold.
  destruct (_apply_custom_request_fields _ _) as [final|x] eqn:Hhook; cbn;
    [|by left].
  intros Hin.
  assert (r ∈ (log ++ [request_for self final])%list) as Hin'
    by (by destruct (server _)).
  apply elem_of_app in Hin' as [?|Hr]; [by left|].
  apply list_elem_of_singleton in Hr as ->. right. cbn.
  repeat split; try done.
Qed.

(** X10: when the transport raises, the call raises the same exception
    after that one request: the request is not repeated and the exception is
    not replaced. *)
Theorem transport_error_propagates
    (self : WebhookConversationTextToSpeechEntity)
    (message language : string) (options : gmap string pyval)
    (log : list Request) (final : gmap string pyval) (x : exn) :
  _apply_custom_request_fields (base self)
    (assemble_payload message language options) = Ok final ->
  server (request_for self final) = Raise x ->
  async_get_tts_audio self message language options log
  = (Raise x, (log ++ [request_for self final])%list).
Proof.
  intros Hhook Hpost.
  by rewrite async_get_tts_audio_unfold, Hhook, Hpost.
Qed.

(** X11: when the webhook answers, the call returns a format with bytes
    exactly when the status is 200, the Content-Type header ends in a slash
    followed by that format, the format is [wav] or [mp3], and the bytes are
    the response body. *)
Theorem audio_returned_iff
    (self : WebhookConversationTextToSpeechEntity)
    (message language : string) (options : gmap string pyval)
    (log : list Request) (response : Response)
    (fmt : string) (bytes : list Byte.byte) :
  webhook_responds self message language options response ->
  fst (async_get_tts_audio self message language options log)
  = Ok (fmt, bytes) <->
  status response = 200 /\ (fmt = "wav" \/ fmt = "mp3") /\
  bytes = body response /\
  exists pre,
    headers_get (headers response) "Content-Type" = Some (pre ++ "/" ++ fmt).
Proof.
  intros Hresp.
  rewrite (async_get_tts_audio_responds _ _ _ _ _ _ Hresp). split.
  - apply read_audio_ok_inv.
  - intros (Hst & Hfmt & -> & pre & Hct). by eapply read_audio_wav_mp3.
Qed.

(** X12: when the webhook answers and the call fails, the exception is a
    [HomeAssistantError] whose message starts with one of the three texts of
    the source; taking the last piece of the split header never raises. *)
Theorem response_errors_are_host_errors
    (self : WebhookConversationTextToSpeechEntity)
    (message language : string) (options : gmap string pyval)
    (log : list Request) (response : Response) (x : exn) :
  webhook_responds self message language options response ->
  fst (async_get_tts_audio self message language options log) = Raise x ->
  exists msg rest,
    x = HomeAssistantError msg /\
    (msg = "Error contacting TTS webhook: HTTP " ++ rest \/
     msg = "Invalid Content-Type in TTS webhook response: " ++ rest \/
     msg = "Unsupported audio format in TTS webhook response: " ++ rest).
Proof.
  intros Hresp.
  rewrite (async_get_tts_audio_responds _ _ _ _ _ _ Hresp).
  apply read_audio_raise_inv.
Qed.

(** X13: the assembled payload has no keys other than [text], [language]
    and [voice], and of the caller's options only the voice entry has any
    effect on it. *)
Theorem only_voice_option_is_forwarded
    (message language : string) (options : gmap string pyval) :
  (forall k : string,
     k <> "text" -> k <> "language" -> k <> "voice" ->
     assemble_payload message language options !! k = None) /\
  (forall options' : gmap string pyval,
     options' !! ATTR_VOICE = options !! ATTR_VOICE ->
     assemble_payload message language options'
     = assemble_payload message language options).
Proof.
  split.
  - intros k Ht Hl Hv. unfold assemble_payload.
    destruct (py_truthy (dict_get options ATTR_VOICE)); by simplify_map_eq.
  - intros options' Heq. unfold assemble_payload, dict_get. by rewrite Heq.
Qed.

(** X14: a synthesis call uses nothing of the entity but its inherited
    part: the requested language and voice are not checked against the
    supported languages and voices, and the cache of the default options
    plays no role. *)
Theorem synthesis_ignores_entity_configuration
    (e e' : WebhookConversationTextToSpeechEntity)
    (message language : string) (options : gmap string pyval)
    (log : list Request) :
  base e = base e' ->
  async_get_tts_audio e message language options log
  = async_get_tts_audio e' message language options log.
Proof.
  intros Hbase. rewrite !async_get_tts_audio_unfold.
  unfold request_for. by rewrite Hbase.
Qed.

(** X15: a call does not depend on the requests made before it: its
    outcome is the same after any log, the earlier entries of the log are
    kept, and at most one request is added. *)
Theorem call_is_independent_of_history
    (self : WebhookConversationTextToSpeechEntity)
    (message language : string) (options : gmap string pyval)
    (log : list Request) :
  exists sent,
    (length sent <= 1)%nat /\
    forall log' : list Request,
      async_get_tts_audio self message language options log'
      = (fst (async_get_tts_audio self message language options log),
         (log' ++ sent)%list).
Proof.
  exists (snd (async_get_tts_audio self message language options [])).
  split; [apply call_sends_at_most_one|].
  intros log'. rewrite (call_log_frame _ _ _ _ log').
  by rewrite (call_log_frame _ _ _ _ log).
Qed.

(** X16: over any operations, the log of requests only grows at its end,
    and by no more requests than there are synthesis calls among the
    operations; voice queries and reads of the default options post
    nothing. *)
Theorem operations_post_at_most_one_request_per_call
    (ops : list operation)
    (e : WebhookConversationTextToSpeechEntity) (log : list Request) :
  exists sent,
    snd (run_ops ops (e, log)) = (log ++ sent)%list /\
    (length sent <= tts_calls ops)%nat.
Proof.
  unfold run_ops, tts_calls. revert e log.
  induction ops as [|op ops IH]; intros e log.
  - exists []. cbn. by rewrite app_nil_r.
  - cbn [fold_left List.filter].
    destruct op as [lang| |message language options].
    + apply IH.
    + destruct (IH (snd (default_options e)) log) as (sent & Hs & Hl).
      exists sent. cbn in *. by rewrite Hs.
    + cbn [run_op fst snd].
      rewrite (call_log_frame e message language options log). cbn [snd].
      destruct (IH e (log ++ snd (async_get_tts_audio e message language
                                    options []))%list)
        as (sent & Hs & Hl).
      exists (snd (async_get_tts_audio e message language options [])
              ++ sent)%list.
      split; [by rewrite Hs, app_assoc|].
      rewrite length_app. cbn [length].
      pose proof (call_sends_at_most_one e message language options). lia.
Qed.

End Entity.

(** ** The claims on concrete configurations and responses *)

(** C1 as stated fails: with a hook that removes the voice, the posted
    payload has no [voice] although the options hold a truthy one. *)
Lemma sent_payload_can_lack_voice :
  ~ (forall (CONF_TIMEOUT : string) (DEFAULT_TIMEOUT : pyval)
       (server : Request -> result Response)
       (self : WebhookConversationTextToSpeechEntity)
       (message language : string) (options : gmap string pyval)
       (sent : Request),
       snd (async_get_tts_audio CONF_TIMEOUT DEFAULT_TIMEOUT server self
              message language options []) = [sent] ->
       is_Some (req_json sent !! "text") /\
       is_Some (req_json sent !! "language") /\
       (is_Some (req_json sent !! "voice")
          <-> py_truthy (dict_get options ATTR_VOICE) = true)).
Proof.
  intros H.
  destruct (H "timeout" (PyInt 30) (always_responds mp3_response)
              (example_entity drop_voice) "Hello" "en"
              {[ "voice" := PyStr "anna" ]}
              (request_for "timeout" (PyInt 30) (example_entity drop_voice)
                 {[ "text" := PyStr "Hello"; "language" := PyStr "en" ]}))
    as (_ & _ & Hiff).
  - by vm_compute.
  - destruct (proj2 Hiff) as [v Hv]; [by vm_compute|].
    vm_compute in Hv. discriminate.
Qed.

(** Status 200, Content-Type audio/mp3 and body ABC give the pair of mp3 and
    the three bytes. *)
Lemma audio_returned_for_wav_or_mp3_witness :
  fst (async_get_tts_audio "timeout" (PyInt 30)
         (always_responds mp3_response) (example_entity keep_fields)
         "Hello" "en" ∅ [])
  = Ok ("mp3", [Byte.x41; Byte.x42; Byte.x43]).
Proof.
  apply (audio_returned_for_wav_or_mp3 "timeout" (PyInt 30)
           (always_responds mp3_response) (example_entity keep_fields)
           "Hello" "en" ∅ [] mp3_response "audio" "mp3").
  - eexists. split; reflexivity.
  - reflexivity.
  - reflexivity.
  - right. reflexivity.
Defined.

(** Content-Type text/plain is refused, and the error names plain. *)
Lemma subtype_must_be_wav_or_mp3_witness :
  fst (async_get_tts_audio "timeout" (PyInt 30)
         (always_responds plain_response) (example_entity keep_fields)
         "Hello" "en" ∅ [])
  = Raise (HomeAssistantError
             "Unsupported audio format in TTS webhook response: plain").
Proof.
  destruct (subtype_must_be_wav_or_mp3 "timeout" (PyInt 30)
              (always_responds plain_response) (example_entity keep_fields)
              "Hello" "en" ∅ [] plain_response "text/plain")
    as (pre & fmt & Hcut & Hno & Hres).
  - eexists. split; reflexivity.
  - reflexivity.
  - reflexivity.
  - reflexivity.
  - assert (fmt = "plain") as ->.
    { apply (last_sep_unique "/" pre "text" fmt "plain");
        [exact Hno | reflexivity | symmetry; exact Hcut]. }
    exact Hres.
Defined.

(** A 404 answer fails with a message that holds 404 and the reason phrase. *)
Lemma non_200_status_fails_witness :
  exists msg,
    fst (async_get_tts_audio "timeout" (PyInt 30)
           (always_responds not_found_response) (example_entity keep_fields)
           "Hello" "en" ∅ [])
    = Raise (HomeAssistantError msg) /\
    msg = "Error contacting TTS webhook: HTTP 404 - Not Found" /\
    str_in "404" msg = true /\
    str_in "Not Found" msg = true.
Proof.
  apply (non_200_status_fails "timeout" (PyInt 30)
           (always_responds not_found_response) (example_entity keep_fields)
           "Hello" "en" ∅ [] not_found_response).
  - eexists. split; reflexivity.
  - discriminate.
Defined.

(** A 200 answer without a Content-Type header fails as invalid. *)
Lemma invalid_content_type_fails_witness :
  fst (async_get_tts_audio "timeout" (PyInt 30)
         (always_responds untyped_response) (example_entity keep_fields)
         "Hello" "en" ∅ [])
  = Raise (HomeAssistantError
             "Invalid Content-Type in TTS webhook response: None").
Proof.
  apply (invalid_content_type_fails "timeout" (PyInt 30)
           (always_responds untyped_response) (example_entity keep_fields)
           "Hello" "en" ∅ [] untyped_response).
  - eexists. split; reflexivity.
  - reflexivity.
  - left. reflexivity.
Defined.

(** Languages en, de: the constructor succeeds and en is the default. *)
Lemma default_language_is_first_witness :
  __init__ "supported_languages" "voices" (example_base_init keep_fields)
    example_entry (example_voiced_subentry [PyStr "a"; PyStr "b"])
  = Ok (example_voiced_entity [PyStr "a"; PyStr "b"]) /\
  _attr_default_language (example_voiced_entity [PyStr "a"; PyStr "b"])
  = PyStr "en" /\
  _attr_supported_languages (example_voiced_entity [PyStr "a"; PyStr "b"])
  = PyList [PyStr "en"; PyStr "de"].
Proof.
  assert (Hinit :
    __init__ "supported_languages" "voices" (example_base_init keep_fields)
      example_entry (example_voiced_subentry [PyStr "a"; PyStr "b"])
    = Ok (example_voiced_entity [PyStr "a"; PyStr "b"])) by reflexivity.
  split; [exact Hinit|].
  destruct (default_language_is_first "supported_languages" "voices"
              "timeout" (PyInt 30) (example_base_init keep_fields)
              (always_responds mp3_response) example_entry
              (example_voiced_subentry [PyStr "a"; PyStr "b"])
              (PyStr "en") [PyStr "de"]) as [Hfirst _].
  - reflexivity.
  - destruct (Hfirst _ [] [] Hinit) as (Hd & Hs & _). exact (conj Hd Hs).
Defined.

(** Voices a, b are listed as (a, a), (b, b) for en and for fr alike. *)
Lemma supported_voices_ignore_language_witness :
  async_get_supported_voices
    (example_voiced_entity [PyStr "a"; PyStr "b"]) "en"
  = Some [mkVoice (PyStr "a") (PyStr "a"); mkVoice (PyStr "b") (PyStr "b")] /\
  async_get_supported_voices
    (example_voiced_entity [PyStr "a"; PyStr "b"]) "fr"
  = Some [mkVoice (PyStr "a") (PyStr "a"); mkVoice (PyStr "b") (PyStr "b")].
Proof.
  destruct (supported_voices_ignore_language "supported_languages" "voices"
              "timeout" (PyInt 30) (example_base_init keep_fields)
              (always_responds mp3_response) example_entry
              (example_voiced_subentry [PyStr "a"; PyStr "b"])
              (example_voiced_entity [PyStr "a"; PyStr "b"]) [] []
              "en" "fr" (Some [PyStr "a"; PyStr "b"])) as [Hsame Hen].
  - reflexivity.
  - reflexivity.
  - split; [exact Hen | exact (eq_trans (eq_sym Hsame) Hen)].
Defined.

(** With the single voice x configured, the default options select x. *)
Lemma default_options_selects_first_voice_witness :
  fst (default_options (example_voiced_entity [PyStr "x"]))
  = Some {[ "voice" := mkVoice (PyStr "x") (PyStr "x") ]}.
Proof.
  apply (default_options_selects_first_voice "supported_languages" "voices"
           "timeout" (PyInt 30) (example_base_init keep_fields)
           (always_responds mp3_response) example_entry
           (example_voiced_subentry [PyStr "x"])
           (example_voiced_entity [PyStr "x"]) [] []
           (Some [PyStr "x"])).
  - reflexivity.
  - reflexivity.
Defined.

(** A subentry without the languages entry: the constructor raises and so
    does the setup of its configuration entry. *)
Lemma construction_needs_languages_witness :
  __init__ "supported_languages" "voices" (example_base_init keep_fields)
    {| entry_options := ∅; subentries := [example_subentry ∅] |}
    (example_subentry ∅)
  = Raise (KeyError "supported_languages") /\
  is_ok (fst (async_setup_entry "supported_languages" "voices"
                (example_base_init keep_fields)
                {| entry_options := ∅; subentries := [example_subentry ∅] |}))
  = false.
Proof.
  destruct (construction_needs_languages "supported_languages" "voices"
              (example_base_init keep_fields)
              {| entry_options := ∅; subentries := [example_subentry ∅] |}
              (example_subentry ∅)) as (Habsent & _ & Hsetup & _).
  destruct (Habsent eq_refl) as [Hfail Hraise]. split.
  - exact (Hraise _ eq_refl).
  - apply (Hsetup Hfail); [left | reflexivity].
Defined.

(** After reading the default options, a synthesis call and a voice query,
    the voices and the voice option are as configured. *)
Lemma voices_invariant_witness :
  let e' :=
    fst (run_ops "timeout" (PyInt 30) (always_responds mp3_response)
           [DefaultOptions; GetTtsAudio "Hello" "en" ∅;
            GetSupportedVoices "en"]
           (example_voiced_entity [PyStr "a"; PyStr "b"], [])) in
  _voices e'
  = Some [mkVoice (PyStr "a") (PyStr "a"); mkVoice (PyStr "b") (PyStr "b")] /\
  _attr_supported_options e' = Some ["voice"].
Proof.
  intros e'.
  destruct (voices_invariant "supported_languages" "voices"
              "timeout" (PyInt 30) (example_base_init keep_fields)
              (always_responds mp3_response) example_entry
              (example_voiced_subentry [PyStr "a"; PyStr "b"])
              (example_voiced_entity [PyStr "a"; PyStr "b"])
              [DefaultOptions; GetTtsAudio "Hello" "en" ∅;
               GetSupportedVoices "en"] [])
    as (_ & _ & _ & Hcfg).
  - reflexivity.
  - exact (Hcfg (Some [PyStr "a"; PyStr "b"]) eq_refl).
Defined.

(** ** The further properties on concrete configurations and responses *)

(** One [tts] subentry beside a subentry of another type: one entity is
    added. *)
Lemma setup_registers_each_tts_subentry_witness :
  Forall2 (registered_for "supported_languages" "voices"
             (example_base_init keep_fields) example_good_entry)
    (snd (async_setup_entry "supported_languages" "voices"
            (example_base_init keep_fields) example_good_entry))
    (filter is_tts (subentries example_good_entry)).
Proof.
  apply (setup_registers_each_tts_subentry "supported_languages" "voices"
           (example_base_init keep_fields) example_good_entry).
  reflexivity.
Defined.

(** The second of three [tts] subentries has no languages: the setup raises
    its [KeyError] with the first entity added. *)
Lemma setup_stops_at_first_failure_witness :
  exists regs,
    async_setup_entry "supported_languages" "voices"
      (example_base_init keep_fields) example_bad_entry
    = (Raise (KeyError "supported_languages"), regs) /\
    Forall2 (registered_for "supported_languages" "voices"
               (example_base_init keep_fields) example_bad_entry)
      regs
      (filter is_tts [example_voiced_subentry [PyStr "a"; PyStr "b"]]).
Proof.
  apply (setup_stops_at_first_failure "supported_languages" "voices"
           (example_base_init keep_fields) example_bad_entry
           [example_voiced_subentry [PyStr "a"; PyStr "b"]]
           [example_voiced_subentry [PyStr "x"]]
           (example_subentry ∅) (KeyError "supported_languages")).
  - reflexivity.
  - constructor; [|constructor]. intros _. reflexivity.
  - reflexivity.
  - reflexivity.
Defined.

(** A device named Kitchen speaker gives the entity its name. *)
Lemma name_is_device_name_or_title_witness :
  exists self_base,
    (fun _ _ => Ok example_device_base)
      example_entry (example_voiced_subentry [PyStr "a"]) = Ok self_base /\
    _attr_name
      (fst (run_ops "timeout" (PyInt 30) (always_responds mp3_response)
              [DefaultOptions] (example_device_entity, [])))
    = match device_info self_base ≫= (fun d => d !! "name") with
      | Some device_name =>
          if py_truthy device_name then device_name
          else PyStr (title (example_voiced_subentry [PyStr "a"]))
      | None => PyStr (title (example_voiced_subentry [PyStr "a"]))
      end.
Proof.
  apply (name_is_device_name_or_title "supported_languages" "voices"
           "timeout" (PyInt 30) (fun _ _ => Ok example_device_base)
           (always_responds mp3_response) example_entry
           (example_voiced_subentry [PyStr "a"]) example_device_entity
           [DefaultOptions] []).
  reflexivity.
Defined.


(** With voices a, b the default voice is a, the first supported voice. *)
Lemma default_voice_is_first_supported_witness :
  exists v rest,
    [mkVoice (PyStr "a") (PyStr "a"); mkVoice (PyStr "b") (PyStr "b")]
    = v :: rest /\
    fst (default_options
           (fst (run_ops "timeout" (PyInt 30) (always_responds mp3_response)
                   [DefaultOptions]
                   (example_voiced_entity [PyStr "a"; PyStr "b"], []))))
    = Some {[ ATTR_VOICE := v ]}.
Proof.
  apply (default_voice_is_first_supported "supported_languages" "voices"
           "timeout" (PyInt 30) (example_base_init keep_fields)
           (always_responds mp3_response) example_entry
           (example_voiced_subentry [PyStr "a"; PyStr "b"])
           (example_voiced_entity [PyStr "a"; PyStr "b"])
           [DefaultOptions] [] "en").
  reflexivity.
Defined.

(** The request of a call with no timeout option carries the default. *)
Lemma posted_request_fields_witness :
  let r := request_for "timeout" (PyInt 30) (example_entity keep_fields)
             {[ "text" := PyStr "Hello"; "language" := PyStr "en" ]} in
  r ∈ [] \/
  (req_url r = "http://hooks.local/tts" /\
   req_headers r = [("Authorization", "Bearer token")] /\
   keep_fields (assemble_payload "Hello" "en" ∅) = Ok (req_json r) /\
   req_timeout r = PyInt 30).
Proof.
  intros r.
  apply (posted_request_fields "timeout" (PyInt 30)
           (always_responds mp3_response) (example_entity keep_fields)
           "Hello" "en" ∅ [] r).
  vm_compute. left.
Defined.

(** An unreachable webhook: the transport's exception, after one request. *)
Lemma transport_error_propagates_witness :
  async_get_tts_audio "timeout" (PyInt 30) never_connects
    (example_entity keep_fields) "Hello" "en" ∅ []
  = (Raise (OtherError "Cannot connect to host"),
     [request_for "timeout" (PyInt 30) (example_entity keep_fields)
        {[ "text" := PyStr "Hello"; "language" := PyStr "en" ]}]).
Proof.
  apply (transport_error_propagates "timeout" (PyInt 30) never_connects
           (example_entity keep_fields) "Hello" "en" ∅ []
           {[ "text" := PyStr "Hello"; "language" := PyStr "en" ]}
           (OtherError "Cannot connect to host")).
  - reflexivity.
  - reflexivity.
Defined.

(** The audio/mp3 answer is returned, by the right-to-left direction. *)
Lemma audio_returned_iff_witness :
  fst (async_get_tts_audio "timeout" (PyInt 30)
         (always_responds mp3_response) (example_entity keep_fields)
         "Hello" "en" ∅ [])
  = Ok ("mp3", body mp3_response).
Proof.
  apply (audio_returned_iff "timeout" (PyInt 30)
           (always_responds mp3_response) (example_entity keep_fields)
           "Hello" "en" ∅ [] mp3_response "mp3" (body mp3_response)).
  - eexists. split; reflexivity.
  - split; [reflexivity|]. split; [right; reflexivity|].
    split; [reflexivity|]. exists "audio". reflexivity.
Defined.

(** The text/plain answer fails with a host error. *)
Lemma response_errors_are_host_errors_witness :
  exists msg rest,
    HomeAssistantError
      "Unsupported audio format in TTS webhook response: plain"
    = HomeAssistantError msg /\
    (msg = "Error contacting TTS webhook: HTTP " ++ rest \/
     msg = "Invalid Content-Type in TTS webhook response: " ++ rest \/
     msg = "Unsupported audio format in TTS webhook response: " ++ rest).
Proof.
  apply (response_errors_are_host_errors "timeout" (PyInt 30)
           (always_responds plain_response) (example_entity keep_fields)
           "Hello" "en" ∅ [] plain_response).
  - eexists. split; reflexivity.
  - reflexivity.
Defined.

(** An entity without voices and one with voices synthesise alike, here for
    a voice neither of them lists. *)
Lemma synthesis_ignores_entity_configuration_witness :
  async_get_tts_audio "timeout" (PyInt 30) (always_responds mp3_response)
    (example_entity keep_fields) "Hello" "fr"
    {[ "voice" := PyStr "zoe" ]} []
  = async_get_tts_audio "timeout" (PyInt 30) (always_responds mp3_response)
      (example_voiced_entity [PyStr "a"]) "Hello" "fr"
      {[ "voice" := PyStr "zoe" ]} [].
Proof.
  apply (synthesis_ignores_entity_configuration "timeout" (PyInt 30)
           (always_responds mp3_response) (example_entity keep_fields)
           (example_voiced_entity [PyStr "a"]) "Hello" "fr"
           {[ "voice" := PyStr "zoe" ]} []).
  reflexivity.
Defined.
